(** * Soft-delete, timestamp and identity plugins for Mongoose: model and
    properties

  The development embeds [soft-delete.plugin.ts],
  [timespan-unix-converter.ts] and [id-transform.plugin.ts].  The plugins
  are small decorators over a document store, so the model has three
  layers:

  - [JS]: the JavaScript values the plugins build and inspect (filters,
    update documents, pipeline stages, stored records);
  - [Mongo] and [Mongoose]: the part of the store and of the query layer the
    plugins call into (filter matching for the operators the plugins emit,
    [$set] updates, queries with per-call options, pre-hook dispatch);
  - [SoftDelete], [TimeSpan] and [IdTransform]: the plugins, function by
    function, and [MongoDbModule], which registers them. *)

From Stdlib Require Import List Ascii String ZArith Bool Lia.
Import ListNotations.

#[local] Set Warnings "-register-all".

Local Open Scope string_scope.
Local Open Scope list_scope.

(* ===================================================================== *)
(** ** JavaScript values and objects *)
(* ===================================================================== *)

Module JS.

(** Numbers are the integers the plugins produce (Unix seconds); objects
    keep their keys in insertion order, as [Object.keys] reports them. *)
Inductive value : Type :=
| VNull
| VBool (b : bool)
| VNum (n : Z)
| VStr (s : string)
| VArr (vs : list value)
| VObj (kvs : list (string * value)).

Definition obj : Type := list (string * value).

(** [o[k]]; [None] is JavaScript's [undefined]. *)
Fixpoint obj_get (o : obj) (k : string) : option value :=
  match o with
  | [] => None
  | (k', v) :: o' => if String.eqb k' k then Some v else obj_get o' k
  end.

(** [o[k] = v]: an existing key keeps its position, a new key goes last. *)
Fixpoint obj_set (o : obj) (k : string) (v : value) : obj :=
  match o with
  | [] => [(k, v)]
  | (k', v') :: o' =>
      if String.eqb k' k then (k, v) :: o' else (k', v') :: obj_set o' k v
  end.

(** [delete o[k]]. *)
Fixpoint obj_delete (o : obj) (k : string) : obj :=
  match o with
  | [] => []
  | (k', v') :: o' =>
      if String.eqb k' k then obj_delete o' k else (k', v') :: obj_delete o' k
  end.

(** [Object.keys(o)]. *)
Definition keys (o : obj) : list string := map fst o.

(** Key-wise assignment of every entry of [from] into [to]
    ([Object.assign]-style merge: a colliding key is overwritten). *)
Definition merge (to from : obj) : obj :=
  fold_left (fun acc kv => obj_set acc (fst kv) (snd kv)) from to.

(** Truthiness of an optional boolean property ([undefined] is falsy). *)
Definition truthy (b : option bool) : bool :=
  match b with Some true => true | _ => false end.

(** [b === true] for an optional boolean property. *)
Definition strictly_true (b : option bool) : bool :=
  match b with Some true => true | _ => false end.

(** [x ?? d]. *)
Definition nullish {A : Type} (x : option A) (d : A) : A :=
  match x with Some a => a | None => d end.

End JS.

Import JS.

(* ===================================================================== *)
(** ** The store: matching and updating records *)
(* ===================================================================== *)

Module Mongo.

(** A stored record and a collection of them. *)
Definition document : Type := obj.
Definition collection : Type := list document.

(** Three-valued results: [None] marks a filter that leaves the modelled
    operator fragment (the store would evaluate or reject it; the model
    does not guess).  Conjunction and disjunction are strict. *)
Fixpoint all_of (l : list (option bool)) : option bool :=
  match l with
  | [] => Some true
  | x :: r =>
      match x, all_of r with
      | Some a, Some b => Some (a && b)
      | _, _ => None
      end
  end.

Fixpoint any_of (l : list (option bool)) : option bool :=
  match l with
  | [] => Some false
  | x :: r =>
      match x, any_of r with
      | Some a, Some b => Some (a || b)
      | _, _ => None
      end
  end.

Definition is_operator (k : string) : bool :=
  match k with
  | String c _ => Ascii.eqb c "$"%char
  | EmptyString => false
  end.

Definition is_number (v : value) : bool :=
  match v with VNum _ => true | _ => false end.

(** A stored value equals a scalar literal. *)
Definition scalar_eqb (lit v : value) : bool :=
  match lit, v with
  | VNull, VNull => true
  | VBool a, VBool b => Bool.eqb a b
  | VNum a, VNum b => Z.eqb a b
  | VStr a, VStr b => String.eqb a b
  | _, _ => false
  end.

(** Equality match of a field against a scalar literal.  [{f: null}]
    matches a missing field as well as a null one, and an array-valued
    field matches when one of its elements equals the literal.  Array and
    embedded-document literals are outside the fragment. *)
Definition match_literal (fv : option value) (lit : value) : option bool :=
  match lit with
  | VArr _ | VObj _ => None
  | _ =>
      match fv with
      | None => Some (match lit with VNull => true | _ => false end)
      | Some (VArr es) => Some (existsb (scalar_eqb lit) es)
      | Some v => Some (scalar_eqb lit v)
      end
  end.

(** One operator of an operator document [{f: {$op: arg}}].  [$type]
    looks at the field and, for an array-valued field, at its elements. *)
Definition match_operator (fv : option value) (kv : string * value)
  : option bool :=
  let (k, arg) := kv in
  if String.eqb k "$exists" then
    match arg with
    | VBool b =>
        Some (Bool.eqb (match fv with Some _ => true | None => false end) b)
    | _ => None
    end
  else if String.eqb k "$type" then
    match arg with
    | VStr t =>
        if String.eqb t "number" then
          match fv with
          | Some (VNum _) => Some true
          | Some (VArr es) => Some (existsb is_number es)
          | _ => Some false
          end
        else None
    | _ => None
    end
  else if String.eqb k "$eq" then match_literal fv arg
  else if String.eqb k "$ne" then option_map negb (match_literal fv arg)
  else None.

(** A field condition: an operator document or a literal. *)
Definition match_field (fv : option value) (c : value) : option bool :=
  match c with
  | VObj ((k, a) :: ops) =>
      if forallb is_operator (k :: map fst ops)
      then all_of (map (match_operator fv) ((k, a) :: ops))
      else None
  | _ => match_literal fv c
  end.

(** Does record [d] satisfy filter [f]?  A filter object is the
    conjunction of its entries; [$and] and [$or] take non-empty arrays
    of filters. *)
Fixpoint matches (f : value) (d : document) {struct f} : option bool :=
  match f with
  | VObj entries =>
      all_of
        (map
           (fun kv : string * value =>
              match kv with
              | (k, c) =>
                  if String.eqb k "$and" then
                    match c with
                    | VArr (g :: gs) =>
                        all_of (map (fun h => matches h d) (g :: gs))
                    | _ => None
                    end
                  else if String.eqb k "$or" then
                    match c with
                    | VArr (g :: gs) =>
                        any_of (map (fun h => matches h d) (g :: gs))
                    | _ => None
                    end
                  else if is_operator k then None
                  else match_field (obj_get d k) c
              end)
           entries)
  | _ => None
  end.

(** The record is selected by the filter. *)
Definition accepts (f : obj) (d : document) : bool :=
  match matches (VObj f) d with Some true => true | _ => false end.

(** [$set] payload applied field by field. *)
Definition apply_set (payload : obj) (d : document) : document :=
  fold_left (fun acc kv => obj_set acc (fst kv) (snd kv)) payload d.

(** An update document applied to one record; only [$set] is modelled. *)
Fixpoint apply_update (u : obj) (d : document) : option document :=
  match u with
  | [] => Some d
  | (k, v) :: u' =>
      if String.eqb k "$set" then
        match v with
        | VObj payload => apply_update u' (apply_set payload d)
        | _ => None
        end
      else None
  end.

(** [updateMany(filter, update)]: every selected record is updated, the
    others are left as they are. *)
Fixpoint updateMany (f u : obj) (c : collection) : option collection :=
  match c with
  | [] => Some []
  | d :: c' =>
      match (if accepts f d then apply_update u d else Some d),
            updateMany f u c' with
      | Some d', Some r => Some (d' :: r)
      | _, _ => None
      end
  end.

(** [find(filter)]. *)
Definition find (f : obj) (c : collection) : collection :=
  filter (accepts f) c.

(** One pipeline stage; only [$match] is modelled. *)
Definition run_stage (stage : value) (c : collection) : option collection :=
  match stage with
  | VObj [(k, VObj f)] =>
      if String.eqb k "$match" then Some (find f c) else None
  | _ => None
  end.

End Mongo.

Import Mongo.

(* ===================================================================== *)
(** ** The query layer the plugins hook into *)
(* ===================================================================== *)

Module Mongoose.

(** Per-call options.  The plugin's [SoftDeleteQueryOptions] is merged into
    the layer's [QueryOptions], so both flags are optional properties of
    the same bag; [rest] holds every other option. *)
Record QueryOptions : Type := {
  withDeleted : option bool;
  onlyDeleted : option bool;
  rest : obj
}.

Definition no_options : QueryOptions :=
  {| withDeleted := None; onlyDeleted := None; rest := [] |}.

(** A query under construction: operation name, filter, update document
    (for update operations) and options. *)
Record Query : Type := {
  op : string;
  conditions : obj;
  update : obj;
  options : QueryOptions
}.

Definition getOptions (q : Query) : QueryOptions := options q.

Definition getFilter (q : Query) : obj := conditions q.

(** [q.setOptions(o)]: the properties present in [o] are written over the
    query's options, the others are kept. *)
Definition setOptions (o : QueryOptions) (q : Query) : Query :=
  {| op := op q;
     conditions := conditions q;
     update := update q;
     options :=
       {| withDeleted :=
            match withDeleted o with
            | Some b => Some b
            | None => withDeleted (options q)
            end;
          onlyDeleted :=
            match onlyDeleted o with
            | Some b => Some b
            | None => onlyDeleted (options q)
            end;
          rest := merge (rest (options q)) (rest o) |} |}.

(** [q.where(obj)]: the object's keys are merged into the filter. *)
Definition where_ (c : obj) (q : Query) : Query :=
  {| op := op q;
     conditions := merge (conditions q) c;
     update := update q;
     options := options q |}.

(** [q.setQuery(obj)]: the filter is replaced. *)
Definition setQuery (c : obj) (q : Query) : Query :=
  {| op := op q;
     conditions := c;
     update := update q;
     options := options q |}.

(** The [$set] part of an update document ([u.$set || {}]). *)
Definition set_part (u : obj) : obj :=
  match obj_get u "$set" with Some (VObj s) => s | _ => [] end.

(** [q.set(path, val)]: a top-level replacement of [path] is dropped and
    [$set[path]] is assigned. *)
Definition set_path (path : string) (val : value) (q : Query) : Query :=
  let u := obj_delete (update q) path in
  {| op := op q;
     conditions := conditions q;
     update := obj_set u "$set" (VObj (obj_set (set_part u) path val));
     options := options q |}.

(** [q.set(obj)]: [q.set(key, obj[key])] for every key. *)
Definition set_ (o : obj) (q : Query) : Query :=
  fold_left (fun acc kv => set_path (fst kv) (snd kv) acc) o q.

(** An aggregation: its pipeline and its (possibly absent) options. *)
Record Aggregate : Type := {
  pipeline : list value;
  agg_options : option QueryOptions
}.

(** [pipeline.unshift(stage)]. *)
Definition unshift (stage : value) (a : Aggregate) : Aggregate :=
  {| pipeline := stage :: pipeline a; agg_options := agg_options a |}.

(** Pre-hooks registered with [schema.pre(name, fn)], in registration
    order; an operation runs the hooks registered under its own name. *)
Definition QueryHook : Type := Query -> Query.

Definition run_pre (hooks : list (string * QueryHook)) (m : string)
    (q : Query) : Query :=
  fold_left
    (fun acc h => if String.eqb (fst h) m then snd h acc else acc) hooks q.

(** [Model.updateMany(filter, update)] builds the query; nothing runs yet. *)
Definition Model_updateMany (f u : obj) : Query :=
  {| op := "updateMany"; conditions := f; update := u;
     options := no_options |}.

(** [Model.findOneAndUpdate(filter, update)]. *)
Definition Model_findOneAndUpdate (f u : obj) : Query :=
  {| op := "findOneAndUpdate"; conditions := f; update := u;
     options := no_options |}.

(** [Model.find(filter)] and the other filter-only operations. *)
Definition Model_query (m : string) (f : obj) : Query :=
  {| op := m; conditions := f; update := []; options := no_options |}.

(** Executing a query: its pre-hooks run, then the store is called with the
    filter (and update) the query holds at that point. *)
Definition executed (hooks : list (string * QueryHook)) (q : Query) : Query :=
  run_pre hooks (op q) q.

Definition exec_read (hooks : list (string * QueryHook)) (q : Query)
    (c : collection) : collection :=
  find (getFilter (executed hooks q)) c.

Definition exec_update (hooks : list (string * QueryHook)) (q : Query)
    (c : collection) : option collection :=
  let q' := executed hooks q in
  updateMany (getFilter q') (update q') c.

(** [doc.save()]: the record as it stands is what is written back. *)
Definition save (this : document) : document := this.

End Mongoose.

Import Mongoose.

(* ===================================================================== *)
(** ** soft-delete.plugin.ts *)
(* ===================================================================== *)

Module SoftDelete.

(** [Math.floor(Date.now() / 1000)]; [now] is the clock reading in
    milliseconds. *)
Definition generateUnixTime (now : Z) : Z := (now / 1000)%Z.

Record Opts : Type := { field : string; defaultFilter : string }.

Definition opts : Opts :=
  {| field := "deletedAt"; defaultFilter := "exclude" |}.

Definition notDeleted (_ : unit) : obj :=
  [("$or",
    VArr [VObj [(field opts, VObj [("$exists", VBool false)])];
          VObj [(field opts, VNull)]])].

Definition isDeleted (_ : unit) : obj :=
  [(field opts, VObj [("$type", VStr "number")])].

(** [schema.query.withDeleted] *)
Definition query_withDeleted (this : Query) : Query :=
  setOptions {| withDeleted := Some true; onlyDeleted := None; rest := [] |}
    this.

(** [schema.query.onlyDeleted] *)
Definition query_onlyDeleted (this : Query) : Query :=
  setOptions {| withDeleted := None; onlyDeleted := Some true; rest := [] |}
    this.

Definition methods : list string :=
  ["find"; "findOne"; "count"; "countDocuments"; "distinct"; "update";
   "updateOne"; "updateMany"; "findOneAndUpdate"; "findOneAndDelete";
   "findOneAndRemove"; "exists"].

(** [getOptions()] and [getFilter()] always hand back an object, so the
    two [?? {}] defaults of the source are never taken. *)
Definition apply (q : Query) : Query :=
  let qopts := getOptions q in
  let only :=
    truthy (onlyDeleted qopts) || String.eqb (defaultFilter opts) "only" in
  let include :=
    truthy (withDeleted qopts) || String.eqb (defaultFilter opts) "include" in
  if include && negb only then q
  else
    let cond := if only then isDeleted tt else notDeleted tt in
    let current := getFilter q in
    let hasFilter := Nat.ltb 0 (List.length (keys current)) in
    if negb hasFilter then where_ cond q
    else setQuery [("$and", VArr [VObj current; VObj cond])] q.

(** [methods.forEach(m => schema.pre(m, function () { apply(this) }))] *)
Definition query_hooks : list (string * QueryHook) :=
  map (fun m => (m, apply)) methods.

(** [schema.pre('aggregate', ...)] *)
Definition pre_aggregate (this : Aggregate) : Aggregate :=
  let aopts := nullish (agg_options this) no_options in
  let only :=
    strictly_true (onlyDeleted aopts)
    || String.eqb (defaultFilter opts) "only" in
  let include :=
    strictly_true (withDeleted aopts)
    || String.eqb (defaultFilter opts) "include" in
  if include && negb only then this
  else
    unshift
      (VObj [("$match", VObj (if only then isDeleted tt else notDeleted tt))])
      this.

(** [schema.method('softDelete', ...)] *)
Definition method_softDelete (now : Z) (this : document) : document :=
  save (obj_set this (field opts) (VNum (generateUnixTime now))).

(** [schema.method('restore', ...)] *)
Definition method_restore (this : document) : document :=
  save (obj_set this (field opts) VNull).

(** [schema.static('softDelete', ...)]; [None] is an omitted argument. *)
Definition static_softDelete (now : Z) (filter : option obj) : Query :=
  Model_updateMany (nullish filter [])
    [("$set", VObj [("deletedAt", VNum (generateUnixTime now))])].

(** [schema.static('restore', ...)] *)
Definition static_restore (filter : option obj) : Query :=
  Model_updateMany (nullish filter [])
    [("$set", VObj [("deletedAt", VNull)])].

End SoftDelete.

(* ===================================================================== *)
(** ** timespan-unix-converter.ts *)
(* ===================================================================== *)

Module TimeSpan.

Definition generateUnixTime (now : Z) : Z := (now / 1000)%Z.

(** A document instance being saved: [isNew] and its fields. *)
Record Doc : Type := { isNew : bool; fields : document }.

Definition assign (k : string) (v : value) (this : Doc) : Doc :=
  {| isNew := isNew this; fields := obj_set (fields this) k v |}.

(** [schema.pre('save', ...)]; each call of [generateUnixTime] reads the
    clock on its own: [now1] for the creation marker, [now2] for the
    update marker. *)
Definition pre_save (now1 now2 : Z) (this : Doc) : Doc :=
  let this1 :=
    if isNew this
    then assign "createdAt" (VNum (generateUnixTime now1)) this
    else this in
  assign "updatedAt" (VNum (generateUnixTime now2)) this1.

(** [schema.add]: both markers are declared as required numbers. *)
Definition required_paths : list string := ["createdAt"; "updatedAt"].

(** Validation of the declared paths.  A document instance holds cast
    values, so a number path holds a number, null or nothing; [required]
    turns down the last two. *)
Definition validate (this : Doc) : bool :=
  forallb
    (fun p =>
       match obj_get (fields this) p with
       | Some (VNum _) => true
       | _ => false
       end)
    required_paths.

(** [doc.save()] on a schema with this plugin: the layer validates the
    document before it runs the [pre('save')] hook, and a record that has
    been written is no longer new.  [None] is the [ValidationError]. *)
Definition save (now1 now2 : Z) (this : Doc) : option Doc :=
  if validate this
  then Some {| isNew := false; fields := fields (pre_save now1 now2 this) |}
  else None.

(** [schema.pre('findOneAndUpdate', ...)] *)
Definition pre_findOneAndUpdate (now : Z) (this : Query) : Query :=
  set_ [("updatedAt", VNum (generateUnixTime now))] this.

(** The query hooks the plugin registers, for a clock reading [now]. *)
Definition query_hooks (now : Z) : list (string * QueryHook) :=
  [("findOneAndUpdate", pre_findOneAndUpdate now)].

End TimeSpan.

(* ===================================================================== *)
(** ** id-transform.plugin.ts *)
(* ===================================================================== *)

Module IdTransform.

Section Transform.

(** [ret] is a [Record<string, unknown>]: its values are whatever the
    serializer produced (object ids, dates, strings, nested objects), so
    their type [V] is left open.  [String_] is the engine's [String(x)],
    with [None] for [undefined]; [of_string] makes a string a value. *)
Variable V : Type.
Variable String_ : option V -> string.
Variable of_string : string -> V.

Definition record : Type := list (string * V).

(** [ret[k]] *)
Fixpoint field_get (r : record) (k : string) : option V :=
  match r with
  | [] => None
  | (k', v) :: r' => if String.eqb k' k then Some v else field_get r' k
  end.

(** [ret[k] = v] *)
Fixpoint field_set (r : record) (k : string) (v : V) : record :=
  match r with
  | [] => [(k, v)]
  | (k', v') :: r' =>
      if String.eqb k' k then (k, v) :: r' else (k', v') :: field_set r' k v
  end.

(** [delete ret[k]] *)
Fixpoint field_delete (r : record) (k : string) : record :=
  match r with
  | [] => []
  | (k', v') :: r' =>
      if String.eqb k' k
      then field_delete r' k
      else (k', v') :: field_delete r' k
  end.

(** The [transform] function of the [toJSON] options; it edits [ret] in
    place and returns nothing, so the serializer goes on with [ret]. *)
Definition transform (ret : record) : record :=
  let ret1 := field_set ret "id" (of_string (String_ (field_get ret "_id"))) in
  let ret2 := field_delete ret1 "_id" in
  field_delete ret2 "__v".

End Transform.

Arguments field_get {V} r k.
Arguments field_set {V} r k v.
Arguments field_delete {V} r k.
Arguments transform {V} String_ of_string ret.

(** Records whose values are all strings: [String(s)] is [s] and
    [String(undefined)] is ["undefined"]. *)
Definition String_of_string (x : option string) : string :=
  match x with Some s => s | None => "undefined" end.

End IdTransform.

(* ===================================================================== *)
(** ** The wiring module *)
(* ===================================================================== *)

Module MongoDbModule.

(** [connectionFactory]: the timestamp plugin is registered before the
    soft-delete plugin, on every schema of the connection. *)
Definition query_hooks (now : Z) : list (string * QueryHook) :=
  TimeSpan.query_hooks now ++ SoftDelete.query_hooks.

End MongoDbModule.

Import SoftDelete.

(* ===================================================================== *)
(** ** Vocabulary of the statements *)
(* ===================================================================== *)

(** The deletion marker of a record, if it has one. *)
Definition marker (d : document) : option value := obj_get d (field opts).

(** The marker is missing or holds a scalar, not an array or an embedded
    document. *)
Definition scalar_marker (d : document) : Prop :=
  match marker d with
  | Some (VArr _) | Some (VObj _) => False
  | _ => True
  end.

(** The modes resolved by [apply] and by the aggregate hook from the
    per-call options. *)
Definition resolved_only (o : QueryOptions) : bool :=
  truthy (onlyDeleted o) || String.eqb (defaultFilter opts) "only".

Definition resolved_include (o : QueryOptions) : bool :=
  truthy (withDeleted o) || String.eqb (defaultFilter opts) "include".

(** A deletion predicate is due unless include is resolved without only. *)
Definition predicate_due (o : QueryOptions) : bool :=
  negb (resolved_include o && negb (resolved_only o)).

(** The predicate a resolved mode asks for. *)
Definition injected (o : QueryOptions) : obj :=
  if resolved_only o then isDeleted tt else notDeleted tt.

(** The match stage the aggregate hook builds. *)
Definition match_stage (cond : obj) : value := VObj [("$match", VObj cond)].

(** The logical AND the hook builds for a non-empty caller filter. *)
Definition and_filter (current cond : obj) : obj :=
  [("$and", VArr [VObj current; VObj cond])].

(** The records of the scenario: A never had a marker, B was deleted at
    1700000000, C was restored, D carries a stray string. *)
Definition rec_A : document := [("name", VStr "A")].

Definition rec_B : document :=
  [("name", VStr "B"); ("deletedAt", VNum 1700000000)].

Definition rec_C : document := [("name", VStr "C"); ("deletedAt", VNull)].

Definition rec_D : document :=
  [("name", VStr "D"); ("deletedAt", VStr "yesterday")].



(** A soft-deleted record of an administrator. *)
Definition rec_admin : document :=
  [("role", VStr "admin"); ("deletedAt", VNum 1700000000)].

(** The filter a bulk static ends up executing: the hook registered for
    [updateMany] has run on the query the static built. *)
Definition bulk_filter (filter : option obj) : obj :=
  getFilter (executed query_hooks (static_restore filter)).



(** A stored article, created and last updated at 1700000000. *)
Definition rec_article : document :=
  [("title", VStr "old"); ("createdAt", VNum 1700000000);
   ("updatedAt", VNum 1700000000)].

(** The marker is a number. *)
Definition numeric_marker (d : document) : bool :=
  match marker d with Some (VNum _) => true | _ => false end.



(** Two records agree on every field but the deletion marker. *)
Definition same_but_marker (d d' : document) : Prop :=
  forall k, k <> "deletedAt" -> obj_get d' k = obj_get d k.

(** A serialized user, as the serializer hands it to the transform. *)
Definition ret_user : IdTransform.record string :=
  [("_id", "507f1f77bcf86cd799439011"); ("name", "John"); ("__v", "0")].

(* ===================================================================== *)
(** ** Objects *)
(* ===================================================================== *)

Lemma obj_get_set_same (o : obj) (k : string) (v : value) :
  obj_get (obj_set o k v) k = Some v.
Proof.
  induction o as [|[k' v'] o IH]; simpl.
  - now rewrite String.eqb_refl.
  - destruct (String.eqb k' k) eqn:E; simpl.
    + now rewrite String.eqb_refl.
    + now rewrite E.
Qed.

Lemma obj_get_set_other (o : obj) (k k' : string) (v : value) :
  k <> k' -> obj_get (obj_set o k v) k' = obj_get o k'.
Proof.
  intros Hne.
  induction o as [|[k0 v0] o IH]; simpl.
  - destruct (String.eqb_spec k k'); [contradiction | reflexivity].
  - destruct (String.eqb_spec k0 k) as [->|Hk]; simpl.
    + destruct (String.eqb_spec k k'); [contradiction | reflexivity].
    + destruct (String.eqb_spec k0 k'); [reflexivity | exact IH].
Qed.

Lemma keys_nil (o : obj) : keys o = [] <-> o = [].
Proof.
  destruct o; simpl; split; intros H; try reflexivity; discriminate H.
Qed.

(* ===================================================================== *)
(** ** The two predicates *)
(* ===================================================================== *)

Lemma matches_notDeleted (d : document) :
  matches (VObj (notDeleted tt)) d =
  match marker d with
  | None | Some VNull => Some true
  | Some (VArr es) => Some (existsb (scalar_eqb VNull) es)
  | Some _ => Some false
  end.
Proof.
  unfold marker. simpl.
  destruct (obj_get d "deletedAt") as [[]|]; simpl; try reflexivity.
  now rewrite !andb_true_r, orb_false_r.
Qed.

Lemma matches_isDeleted (d : document) :
  matches (VObj (isDeleted tt)) d =
  match marker d with
  | Some (VNum _) => Some true
  | Some (VArr es) => Some (existsb is_number es)
  | _ => Some false
  end.
Proof.
  unfold marker. simpl.
  destruct (obj_get d "deletedAt") as [[]|]; simpl; try reflexivity.
  now rewrite !andb_true_r.
Qed.

Lemma accepts_empty (d : document) : accepts [] d = true.
Proof. reflexivity. Qed.

Lemma matches_and (f g : obj) (d : document) :
  matches (VObj (and_filter f g)) d = Some true <->
  matches (VObj f) d = Some true /\ matches (VObj g) d = Some true.
Proof.
  unfold and_filter.
  change (matches (VObj [("$and", VArr [VObj f; VObj g])]) d)
    with (all_of [all_of [matches (VObj f) d; matches (VObj g) d]]).
  destruct (matches (VObj f) d) as [[]|], (matches (VObj g) d) as [[]|];
    simpl; intuition discriminate.
Qed.

Lemma accepts_and (f g : obj) (d : document) :
  accepts (and_filter f g) d = accepts f d && accepts g d.
Proof.
  unfold accepts, and_filter.
  change (matches (VObj [("$and", VArr [VObj f; VObj g])]) d)
    with (all_of [all_of [matches (VObj f) d; matches (VObj g) d]]).
  destruct (matches (VObj f) d) as [[]|], (matches (VObj g) d) as [[]|];
    reflexivity.
Qed.

(* ===================================================================== *)
(** ** What [apply] leaves in the query *)
(* ===================================================================== *)

Lemma merge_into_empty_injected (o : QueryOptions) :
  merge [] (injected o) = injected o.
Proof. unfold injected. destruct (resolved_only o); reflexivity. Qed.

Lemma apply_passes_through (q : Query) :
  predicate_due (getOptions q) = false -> apply q = q.
Proof.
  unfold predicate_due, resolved_include, resolved_only, apply.
  intros H. apply negb_false_iff in H. now rewrite H.
Qed.

Lemma apply_injects (q : Query) :
  predicate_due (getOptions q) = true ->
  apply q =
  match getFilter q with
  | [] => where_ (injected (getOptions q)) q
  | _ :: _ => setQuery (and_filter (getFilter q) (injected (getOptions q))) q
  end.
Proof.
  unfold predicate_due, resolved_include, resolved_only, apply, injected,
    and_filter.
  intros H. apply negb_true_iff in H. rewrite H.
  unfold resolved_only. destruct (getFilter q); reflexivity.
Qed.

Lemma getFilter_apply (q : Query) :
  predicate_due (getOptions q) = true ->
  getFilter (apply q) =
  match getFilter q with
  | [] => injected (getOptions q)
  | _ :: _ => and_filter (getFilter q) (injected (getOptions q))
  end.
Proof.
  intros H. rewrite (apply_injects q H).
  destruct (getFilter q) eqn:E.
  - unfold where_, getFilter in *. simpl. rewrite E.
    apply merge_into_empty_injected.
  - reflexivity.
Qed.

Lemma accepts_apply (q : Query) (d : document) :
  predicate_due (getOptions q) = true ->
  accepts (getFilter (apply q)) d =
  accepts (getFilter q) d && accepts (injected (getOptions q)) d.
Proof.
  intros H. rewrite (getFilter_apply q H).
  destruct (getFilter q) eqn:E.
  - now rewrite accepts_empty.
  - apply accepts_and.
Qed.

(** Every operation the plugin lists runs [apply] exactly once. *)
Lemma run_pre_listed (m : string) (q : Query) :
  In m methods -> run_pre query_hooks m q = apply q.
Proof.
  unfold methods. simpl.
  intros H.
  repeat (destruct H as [<-|H]; [reflexivity|]).
  contradiction.
Qed.

Lemma run_pre_map_unlisted (h : QueryHook) (ms : list string) (m : string)
    (q : Query) :
  ~ In m ms -> run_pre (map (fun n => (n, h)) ms) m q = q.
Proof.
  unfold run_pre.
  induction ms as [|n ms IH]; simpl; intros Hn.
  - reflexivity.
  - destruct (String.eqb_spec n m) as [->|Hne].
    + exfalso. apply Hn. now left.
    + apply IH. intros Hin. apply Hn. now right.
Qed.

Lemma find_only_accepted (f : obj) (c : collection) (d : document) :
  In d (find f c) <-> In d c /\ accepts f d = true.
Proof. unfold find. apply filter_In. Qed.


(* ===================================================================== *)
(** ** Default exclusion, predicates and filter composition *)
(* ===================================================================== *)




(** C3: for every record whose marker is a number and every listed
    operation issued with neither per-call option set to true, the filter
    that is executed rejects the record, so the operation never returns
    it, whatever the caller's own filter. *)
Theorem default_read_rejects_deleted (q : Query) (d : document) (n : Z) :
  In (op q) methods ->
  truthy (withDeleted (getOptions q)) = false ->
  truthy (onlyDeleted (getOptions q)) = false ->
  marker d = Some (VNum n) ->
  accepts (getFilter (executed query_hooks q)) d = false
  /\ forall c, ~ In d (exec_read query_hooks q c).
Proof.
  intros Hm Hw Ho Hd.
  assert (Hdue : predicate_due (getOptions q) = true).
  { unfold predicate_due, resolved_include, resolved_only.
    rewrite Hw, Ho. reflexivity. }
  assert (Hrej : accepts (getFilter (executed query_hooks q)) d = false).
  { unfold executed. rewrite (run_pre_listed _ _ Hm).
    rewrite (accepts_apply q d Hdue).
    apply andb_false_iff. right.
    unfold injected, resolved_only. rewrite Ho. simpl.
    unfold accepts. rewrite matches_notDeleted, Hd. reflexivity. }
  split; [exact Hrej|].
  intros c Hin. unfold exec_read in Hin.
  apply find_only_accepted in Hin as [_ Hacc].
  rewrite Hrej in Hacc. discriminate Hacc.
Qed.

Lemma default_read_rejects_deleted_witness :
  accepts
    (getFilter
       (executed query_hooks (Model_query "find" [("name", VStr "B")])))
    rec_B = false
  /\ forall c,
       ~ In rec_B
           (exec_read query_hooks (Model_query "find" [("name", VStr "B")])
              c).
Proof.
  apply (default_read_rejects_deleted
           (Model_query "find" [("name", VStr "B")]) rec_B 1700000000).
  - simpl. left. reflexivity.
  - reflexivity.
  - reflexivity.
  - reflexivity.
Defined.

(** C5: for every query on which a deletion predicate [cond] is due: if
    the caller's filter has no keys the executed filter is exactly [cond];
    otherwise it is the object [{$and: [current, cond]}], which holds both
    sides intact and differs from the key-wise merge of [cond] into
    [current]; in both cases a record matches the result iff it matches
    the caller's filter and [cond]. *)
Theorem injected_predicate_is_conjoined (q : Query) :
  predicate_due (getOptions q) = true ->
  (keys (getFilter q) = [] ->
   getFilter (apply q) = injected (getOptions q))
  /\ (keys (getFilter q) <> [] ->
      getFilter (apply q)
      = [("$and",
          VArr [VObj (getFilter q); VObj (injected (getOptions q))])]
      /\ getFilter (apply q)
         <> merge (getFilter q) (injected (getOptions q)))
  /\ (forall d,
        matches (VObj (getFilter (apply q))) d = Some true <->
        matches (VObj (getFilter q)) d = Some true
        /\ matches (VObj (injected (getOptions q))) d = Some true).
Proof.
  intros Hdue.
  assert (Hf := getFilter_apply q Hdue).
  split; [|split].
  - intros Hk. apply keys_nil in Hk. rewrite Hf, Hk. reflexivity.
  - intros Hk. rewrite Hf.
    destruct (getFilter q) as [|e o] eqn:E; [contradiction|].
    split; [reflexivity|].
    intros Heq.
    assert (Hg : exists k v,
               k <> "$and"
               /\ merge (e :: o) (injected (getOptions q))
                  = obj_set (e :: o) k v).
    { unfold injected. destruct (resolved_only (getOptions q)).
      - exists "deletedAt". eexists. split; [discriminate|reflexivity].
      - exists "$or". eexists. split; [discriminate|reflexivity]. }
    destruct Hg as (k & v & Hne & Hm).
    rewrite Hm in Heq.
    assert (Hget := obj_get_set_same (e :: o) k v).
    rewrite <- Heq in Hget. unfold and_filter in Hget. cbn [obj_get] in Hget.
    destruct (String.eqb_spec "$and" k) as [Hk'|_].
    + apply Hne. now symmetry.
    + discriminate Hget.
  - intros d. rewrite Hf. destruct (getFilter q) eqn:E.
    + split; [intros H; split; [reflexivity|exact H] | intros [_ H]; exact H].
    + apply matches_and.
Qed.

Lemma injected_predicate_is_conjoined_witness :
  getFilter (apply (Model_query "find" [("status", VStr "active")]))
  = [("$and",
      VArr [VObj [("status", VStr "active")]; VObj (notDeleted tt)])].
Proof.
  destruct (injected_predicate_is_conjoined
              (Model_query "find" [("status", VStr "active")]) eq_refl)
    as (_ & H & _).
  destruct H as [H _]; [discriminate|exact H].
Defined.

(* ===================================================================== *)
(** ** Mode precedence and the query helpers *)
(* ===================================================================== *)

(** C4: when both [onlyDeleted] and [withDeleted] are requested on a query,
    in either order, [apply] leaves the same filter as when [onlyDeleted]
    alone is requested, and that filter carries [isDeleted()]; the whole
    query differs only by the [withDeleted] flag.  The same filter results
    when the options are given directly with [onlyDeleted] true, whatever
    [withDeleted] says; and for an aggregation whose options request
    [onlyDeleted], the hook puts the [isDeleted()] match stage in front
    whatever [withDeleted] says. *)
Theorem only_wins_over_include (q : Query) (pl : list value)
    (w : option bool) (r : obj) :
  apply (query_withDeleted (query_onlyDeleted q))
  = query_withDeleted (apply (query_onlyDeleted q))
  /\ getFilter (apply (query_withDeleted (query_onlyDeleted q)))
     = getFilter (apply (query_onlyDeleted q))
  /\ getFilter (apply (query_onlyDeleted (query_withDeleted q)))
     = getFilter (apply (query_onlyDeleted q))
  /\ getFilter (apply (query_onlyDeleted q))
     = match getFilter q with
       | [] => isDeleted tt
       | _ :: _ => [("$and", VArr [VObj (getFilter q); VObj (isDeleted tt)])]
       end
  /\ getFilter
       (apply
          {| op := op q; conditions := getFilter q; update := update q;
             options :=
               {| withDeleted := w; onlyDeleted := Some true; rest := r |} |})
     = getFilter (apply (query_onlyDeleted q))
  /\ pre_aggregate
       {| pipeline := pl;
          agg_options :=
            Some {| withDeleted := w; onlyDeleted := Some true; rest := r |} |}
     = {| pipeline := VObj [("$match", VObj (isDeleted tt))] :: pl;
          agg_options :=
            Some {| withDeleted := w; onlyDeleted := Some true; rest := r |} |}.
Proof.
  destruct q as [m f u [qw qo qr]].
  unfold apply, query_withDeleted, query_onlyDeleted, setOptions,
    pre_aggregate.
  repeat split; simpl;
    destruct qw as [[]|], w as [[]|], f; reflexivity.
Qed.

(** C10: [withDeleted()] and [onlyDeleted()] return the query with their own
    flag set to true and everything else as it was: operation, filter,
    update, the other flag and the remaining options.  When include is
    resolved and only is not, [apply] returns the query unchanged, so its
    filter is the caller's. *)
Theorem helpers_and_include_leave_filter (q : Query) :
  (op (query_withDeleted q) = op q
   /\ getFilter (query_withDeleted q) = getFilter q
   /\ update (query_withDeleted q) = update q
   /\ withDeleted (getOptions (query_withDeleted q)) = Some true
   /\ onlyDeleted (getOptions (query_withDeleted q))
      = onlyDeleted (getOptions q)
   /\ rest (getOptions (query_withDeleted q)) = rest (getOptions q))
  /\ (op (query_onlyDeleted q) = op q
      /\ getFilter (query_onlyDeleted q) = getFilter q
      /\ update (query_onlyDeleted q) = update q
      /\ onlyDeleted (getOptions (query_onlyDeleted q)) = Some true
      /\ withDeleted (getOptions (query_onlyDeleted q))
         = withDeleted (getOptions q)
      /\ rest (getOptions (query_onlyDeleted q)) = rest (getOptions q))
  /\ (resolved_include (getOptions q) = true ->
      resolved_only (getOptions q) = false ->
      apply q = q /\ getFilter (apply q) = getFilter q)
  /\ (truthy (onlyDeleted (getOptions q)) = false ->
      getFilter (apply (query_withDeleted q)) = getFilter q).
Proof.
  split; [|split; [|split]].
  - repeat split.
  - repeat split.
  - intros Hi Ho.
    assert (H : apply q = q).
    { apply apply_passes_through. unfold predicate_due.
      rewrite Hi, Ho. reflexivity. }
    rewrite H. split; reflexivity.
  - intros Ho.
    rewrite apply_passes_through; [reflexivity|].
    unfold predicate_due, resolved_include, resolved_only.
    unfold query_withDeleted, setOptions, getOptions in *. simpl.
    rewrite Ho. reflexivity.
Qed.

Lemma helpers_and_include_leave_filter_witness :
  apply (query_withDeleted (Model_query "find" [("name", VStr "B")]))
  = query_withDeleted (Model_query "find" [("name", VStr "B")])
  /\ getFilter
       (apply (query_withDeleted (Model_query "find" [("name", VStr "B")])))
     = [("name", VStr "B")].
Proof.
  destruct (helpers_and_include_leave_filter
              (query_withDeleted (Model_query "find" [("name", VStr "B")])))
    as (_ & _ & H & _).
  apply H; reflexivity.
Defined.

(* ===================================================================== *)
(** ** Aggregation pipelines *)
(* ===================================================================== *)

(** C7: for every aggregation whose resolved mode asks for a deletion
    predicate, the hook returns the pipeline with one match stage carrying
    that predicate in front and the former stages behind it, in their
    order, options untouched; that first stage passes on exactly the
    records of the collection that satisfy the predicate.  When include is
    resolved without only, the aggregation is returned as it was. *)
Theorem aggregate_hook_prepends_match (a : Aggregate) :
  (predicate_due (nullish (agg_options a) no_options) = true ->
   pipeline (pre_aggregate a)
   = VObj [("$match",
            VObj (injected (nullish (agg_options a) no_options)))]
     :: pipeline a
   /\ List.length (pipeline (pre_aggregate a)) = S (List.length (pipeline a))
   /\ tl (pipeline (pre_aggregate a)) = pipeline a
   /\ agg_options (pre_aggregate a) = agg_options a
   /\ forall c,
        run_stage (hd VNull (pipeline (pre_aggregate a))) c
        = Some (find (injected (nullish (agg_options a) no_options)) c)
        /\ forall d,
             In d (find (injected (nullish (agg_options a) no_options)) c)
             -> accepts (injected (nullish (agg_options a) no_options)) d
                = true)
  /\ (predicate_due (nullish (agg_options a) no_options) = false ->
      pre_aggregate a = a).
Proof.
  split.
  - intros Hdue.
    assert (Hp : pre_aggregate a
                 = unshift
                     (match_stage
                        (injected (nullish (agg_options a) no_options)))
                     a).
    { unfold predicate_due, resolved_include, resolved_only in Hdue.
      apply negb_true_iff in Hdue.
      unfold pre_aggregate, injected, resolved_only, match_stage.
      change strictly_true with truthy. rewrite Hdue. reflexivity. }
    rewrite Hp. simpl.
    repeat split.
    intros d Hin. now apply find_only_accepted in Hin.
  - intros Hdue.
    unfold predicate_due, resolved_include, resolved_only in Hdue.
    apply negb_false_iff in Hdue.
    unfold pre_aggregate. change strictly_true with truthy.
    now rewrite Hdue.
Qed.

Lemma aggregate_hook_prepends_match_witness :
  pipeline
    (pre_aggregate
       {| pipeline := [VObj [("$sort", VObj [("name", VNum 1)])]];
          agg_options := None |})
  = [VObj [("$match", VObj (notDeleted tt))];
     VObj [("$sort", VObj [("name", VNum 1)])]]
  /\ pre_aggregate
       {| pipeline := [VObj [("$sort", VObj [("name", VNum 1)])]];
          agg_options :=
            Some {| withDeleted := Some true; onlyDeleted := None;
                    rest := [] |} |}
     = {| pipeline := [VObj [("$sort", VObj [("name", VNum 1)])]];
          agg_options :=
            Some {| withDeleted := Some true; onlyDeleted := None;
                    rest := [] |} |}.
Proof.
  split.
  - destruct (aggregate_hook_prepends_match
                {| pipeline := [VObj [("$sort", VObj [("name", VNum 1)])]];
                   agg_options := None |}) as [H _].
    destruct (H eq_refl) as [H1 _]. exact H1.
  - destruct (aggregate_hook_prepends_match
                {| pipeline := [VObj [("$sort", VObj [("name", VNum 1)])]];
                   agg_options :=
                     Some {| withDeleted := Some true; onlyDeleted := None;
                             rest := [] |} |}) as [_ H].
    exact (H eq_refl).
Defined.

(* ===================================================================== *)
(** ** Instance-level mutators *)
(* ===================================================================== *)





(* ===================================================================== *)
(** ** Bulk statics *)
(* ===================================================================== *)

Lemma updateMany_set (f payload : obj) (c : collection) :
  updateMany f [("$set", VObj payload)] c
  = Some (map (fun d => if accepts f d then apply_set payload d else d) c).
Proof.
  induction c as [|d c IH]; simpl.
  - reflexivity.
  - rewrite IH. destruct (accepts f d); reflexivity.
Qed.

(** The statics build an [updateMany] query, and [updateMany] is one of the
    hooked operations: the filter that reaches the store is the caller's
    filter with [notDeleted()] injected. *)
Lemma bulk_filter_injected (filter : option obj) :
  bulk_filter filter
  = match nullish filter [] with
    | [] => notDeleted tt
    | _ :: _ => and_filter (nullish filter []) (notDeleted tt)
    end.
Proof.
  unfold bulk_filter, executed. simpl op.
  rewrite run_pre_listed by (simpl; tauto).
  rewrite getFilter_apply by reflexivity.
  reflexivity.
Qed.

Lemma bulk_filter_needs_live (filter : option obj) (d : document) :
  accepts (bulk_filter filter) d = true ->
  accepts (notDeleted tt) d = true.
Proof.
  rewrite bulk_filter_injected.
  destruct (nullish filter []).
  - trivial.
  - rewrite accepts_and. intros H. now apply andb_true_iff in H as [_ H].
Qed.

Lemma exec_static_restore (filter : option obj) (c : collection) :
  exec_update query_hooks (static_restore filter) c
  = Some
      (map
         (fun d =>
            if accepts (bulk_filter filter) d
            then obj_set d "deletedAt" VNull
            else d)
         c).
Proof.
  unfold exec_update, bulk_filter, executed. simpl op.
  rewrite run_pre_listed by (simpl; tauto).
  replace (update (apply (static_restore filter)))
    with [("$set", VObj [("deletedAt", VNull)])].
  - apply updateMany_set.
  - rewrite apply_injects by reflexivity.
    destruct (getFilter (static_restore filter)); reflexivity.
Qed.

Lemma exec_static_softDelete (now : Z) (filter : option obj)
    (c : collection) :
  exec_update query_hooks (static_softDelete now filter) c
  = Some
      (map
         (fun d =>
            if accepts (bulk_filter filter) d
            then obj_set d "deletedAt" (VNum (generateUnixTime now))
            else d)
         c).
Proof.
  unfold exec_update, bulk_filter, executed. simpl op.
  rewrite !run_pre_listed by (simpl; tauto).
  replace (update (apply (static_softDelete now filter)))
    with [("$set", VObj [("deletedAt", VNum (generateUnixTime now))])].
  - replace (getFilter (apply (static_softDelete now filter)))
      with (getFilter (apply (static_restore filter))).
    + apply updateMany_set.
    + rewrite !getFilter_apply by reflexivity. reflexivity.
  - rewrite apply_injects by reflexivity.
    destruct (getFilter (static_softDelete now filter)); reflexivity.
Qed.

(** No bulk static ever touches a record whose marker is a number. *)
Lemma bulk_statics_leave_deleted_records (filter : option obj)
    (d : document) (n : Z) :
  marker d = Some (VNum n) -> accepts (bulk_filter filter) d = false.
Proof.
  intros Hd.
  destruct (accepts (bulk_filter filter) d) eqn:E; [|reflexivity].
  apply bulk_filter_needs_live in E.
  unfold accepts in E. rewrite matches_notDeleted, Hd in E.
  discriminate E.
Qed.

(** After a bulk [softDelete] with any filter, a second bulk [softDelete]
    with no filter finds nothing left to stamp. *)
Lemma bulk_softDelete_again_changes_nothing (t1 t2 : Z) (c c1 : collection) :
  exec_update query_hooks (static_softDelete t1 None) c = Some c1 ->
  exec_update query_hooks (static_softDelete t2 None) c1 = Some c1.
Proof.
  rewrite !exec_static_softDelete. intros H. injection H as <-.
  f_equal. rewrite map_map.
  apply map_ext. intros d.
  destruct (accepts (bulk_filter None) d) eqn:E.
  - rewrite (bulk_statics_leave_deleted_records None _
               (generateUnixTime t1)); [reflexivity|].
    unfold marker. apply obj_get_set_same.
  - rewrite E. reflexivity.
Qed.

(** C1: the bulk statics at a soft-deleted record.  [restore] with a
    filter the record satisfies executes that filter conjoined with
    [notDeleted()], so the record is not selected and keeps its numeric
    marker instead of getting null; [softDelete] with the same filter does
    not re-stamp it either, and with the filter omitted the executed
    filter is [notDeleted()], not the match-all filter. *)
Theorem bulk_statics_at_deleted_record :
  exec_update query_hooks (static_restore (Some [("role", VStr "admin")]))
    [rec_admin] = Some [rec_admin]
  /\ marker rec_admin = Some (VNum 1700000000)
  /\ accepts [("role", VStr "admin")] rec_admin = true
  /\ getFilter
       (executed query_hooks
          (static_restore (Some [("role", VStr "admin")])))
     = [("$and",
         VArr [VObj [("role", VStr "admin")]; VObj (notDeleted tt)])]
  /\ exec_update query_hooks
       (static_softDelete 1800000000000 (Some [("role", VStr "admin")]))
       [rec_admin] = Some [rec_admin]
  /\ getFilter (executed query_hooks (static_softDelete 1800000000000 None))
     = notDeleted tt
  /\ exec_update query_hooks (static_restore None) [rec_A; rec_B; rec_C]
     = Some [[("name", VStr "A"); ("deletedAt", VNull)]; rec_B; rec_C].
Proof. repeat split. Qed.

(** C2: bulk [softDelete({})] called at 1800000000 and again at 1900000000
    on the records A (no marker), B (deleted at 1700000000) and C (marker
    null): A and C carry the time of the first call, B its old time, and
    no record carries the time of the second call. *)
Theorem bulk_softDelete_twice_keeps_first_time :
  exec_update query_hooks (static_softDelete 1800000000000 None)
    [rec_A; rec_B; rec_C]
  = Some
      [[("name", VStr "A"); ("deletedAt", VNum 1800000000)];
       rec_B;
       [("name", VStr "C"); ("deletedAt", VNum 1800000000)]]
  /\ exec_update query_hooks (static_softDelete 1900000000000 None)
       [[("name", VStr "A"); ("deletedAt", VNum 1800000000)];
        rec_B;
        [("name", VStr "C"); ("deletedAt", VNum 1800000000)]]
     = Some
         [[("name", VStr "A"); ("deletedAt", VNum 1800000000)];
          rec_B;
          [("name", VStr "C"); ("deletedAt", VNum 1800000000)]].
Proof. split; reflexivity. Qed.

(* ===================================================================== *)
(** ** The timestamp plugin *)
(* ===================================================================== *)

Lemma obj_get_delete_other (o : obj) (k k' : string) :
  k <> k' -> obj_get (obj_delete o k) k' = obj_get o k'.
Proof.
  intros Hne.
  induction o as [|[k0 v0] o IH]; simpl.
  - reflexivity.
  - destruct (String.eqb_spec k0 k) as [->|Hk].
    + destruct (String.eqb_spec k k'); [contradiction | exact IH].
    + simpl. destruct (String.eqb_spec k0 k'); [reflexivity | exact IH].
Qed.

(** Unix seconds: the whole seconds contained in the millisecond reading. *)
Lemma generateUnixTime_floor (now : Z) :
  (1000 * TimeSpan.generateUnixTime now <= now
   < 1000 * TimeSpan.generateUnixTime now + 1000)%Z.
Proof.
  unfold TimeSpan.generateUnixTime.
  pose proof (Z.div_mod now 1000 ltac:(lia)) as Hdm.
  pose proof (Z.mod_pos_bound now 1000 ltac:(lia)) as Hb.
  lia.
Qed.

Lemma timespan_hook_fires_only_on_findOneAndUpdate (now : Z) (q : Query) :
  op q <> "findOneAndUpdate" ->
  executed (TimeSpan.query_hooks now) q = q.
Proof.
  intros Hne. unfold executed, run_pre, TimeSpan.query_hooks.
  cbn [fold_left fst snd].
  destruct (String.eqb_spec "findOneAndUpdate" (op q)) as [E|_].
  - exfalso. apply Hne. now symmetry.
  - reflexivity.
Qed.

Lemma pre_findOneAndUpdate_update (now : Z) (q : Query) :
  update (TimeSpan.pre_findOneAndUpdate now q)
  = obj_set (obj_delete (update q) "updatedAt") "$set"
      (VObj
         (obj_set (set_part (obj_delete (update q) "updatedAt")) "updatedAt"
            (VNum (TimeSpan.generateUnixTime now)))).
Proof. reflexivity. Qed.





(* ===================================================================== *)
(** ** Further properties: views of a query *)
(* ===================================================================== *)

Lemma run_pre_app (h1 h2 : list (string * QueryHook)) (m : string)
    (q : Query) :
  run_pre (h1 ++ h2) m q = run_pre h2 m (run_pre h1 m q).
Proof. unfold run_pre. apply fold_left_app. Qed.

Lemma run_pre_fixed (hooks : list (string * QueryHook)) (m : string)
    (q : Query) :
  (forall h, In h hooks -> snd h q = q) -> run_pre hooks m q = q.
Proof.
  unfold run_pre.
  induction hooks as [|[n g] hooks IH]; intros Hfix.
  - reflexivity.
  - cbn [fold_left fst snd].
    assert (Hg : g q = q) by (apply (Hfix (n, g)); now left).
    assert (Hrest : forall h, In h hooks -> snd h q = q)
      by (intros h Hin; apply Hfix; now right).
    destruct (String.eqb n m); [rewrite Hg|]; apply IH; exact Hrest.
Qed.

Lemma query_hooks_are_apply (h : string * QueryHook) :
  In h query_hooks -> snd h = apply.
Proof.
  unfold query_hooks. intros Hin.
  apply in_map_iff in Hin as (m & <- & _). reflexivity.
Qed.

Lemma accepts_isDeleted (d : document) :
  scalar_marker d -> accepts (isDeleted tt) d = numeric_marker d.
Proof.
  unfold scalar_marker, accepts, numeric_marker. rewrite matches_isDeleted.
  destruct (marker d) as [[]|]; intros Hs; try contradiction; reflexivity.
Qed.

Lemma apply_keeps_frame (q : Query) :
  op (apply q) = op q
  /\ update (apply q) = update q
  /\ getOptions (apply q) = getOptions q.
Proof.
  unfold apply.
  destruct (_ && _); [repeat split|].
  destruct (negb _); repeat split.
Qed.



Lemma executed_withDeleted (q : Query) :
  truthy (onlyDeleted (getOptions q)) = false ->
  executed query_hooks (query_withDeleted q) = query_withDeleted q.
Proof.
  intros Ho.
  unfold executed. apply run_pre_fixed. intros h Hin.
  rewrite (query_hooks_are_apply h Hin).
  apply apply_passes_through.
  unfold predicate_due, resolved_include, resolved_only.
  unfold query_withDeleted, setOptions, getOptions in *. simpl.
  rewrite Ho. reflexivity.
Qed.



(** X3: an operation that is not in the plugin's list (for instance
    [deleteMany], [deleteOne], [replaceOne]) runs no hook: the query is
    executed as the caller built it, so it also reaches soft-deleted
    records. *)
Theorem unlisted_operation_is_not_filtered (q : Query) (c : collection) :
  ~ In (op q) methods ->
  executed query_hooks q = q
  /\ exec_read query_hooks q c = find (getFilter q) c.
Proof.
  intros Hn.
  assert (H : executed query_hooks q = q).
  { unfold executed, query_hooks. now apply run_pre_map_unlisted. }
  split; [exact H|]. unfold exec_read. now rewrite H.
Qed.

Lemma unlisted_operation_is_not_filtered_witness :
  exec_read query_hooks (Model_query "deleteMany" []) [rec_A; rec_B]
  = [rec_A; rec_B].
Proof.
  destruct (unlisted_operation_is_not_filtered
              (Model_query "deleteMany" []) [rec_A; rec_B]) as [_ H].
  - simpl. intros Hin.
    repeat (destruct Hin as [Hin|Hin]; [discriminate Hin|]).
    exact Hin.
  - rewrite H. reflexivity.
Defined.

(** X4: the hook only ever narrows a query: it leaves operation, update
    document and options as they are, and every record the executed filter
    accepts is accepted by the caller's filter. *)
Theorem apply_only_narrows (q : Query) (d : document) :
  op (apply q) = op q
  /\ update (apply q) = update q
  /\ getOptions (apply q) = getOptions q
  /\ (accepts (getFilter (apply q)) d = true ->
      accepts (getFilter q) d = true).
Proof.
  destruct (apply_keeps_frame q) as (H1 & H2 & H3).
  repeat (split; [assumption|]).
  destruct (predicate_due (getOptions q)) eqn:E.
  - rewrite (accepts_apply q d E). intros H.
    now apply andb_true_iff in H as [H _].
  - now rewrite (apply_passes_through q E).
Qed.

Lemma apply_only_narrows_witness :
  accepts (getFilter (Model_query "find" [("name", VStr "A")])) rec_A = true.
Proof.
  destruct (apply_only_narrows (Model_query "find" [("name", VStr "A")])
              rec_A) as (_ & _ & _ & H).
  apply H. reflexivity.
Defined.

(** X5: registering the plugin twice on a schema changes no result: with
    the hooks run twice the executed filter accepts exactly the records it
    accepts with the hooks run once. *)
Theorem double_registration_selects_same (q : Query) (d : document) :
  accepts (getFilter (executed (query_hooks ++ query_hooks) q)) d
  = accepts (getFilter (executed query_hooks q)) d.
Proof.
  unfold executed. rewrite run_pre_app.
  destruct (in_dec string_dec (op q) methods) as [Hm|Hn].
  - rewrite !(run_pre_listed _ _ Hm).
    destruct (apply_keeps_frame q) as (_ & _ & Ho).
    destruct (predicate_due (getOptions q)) eqn:E.
    + rewrite accepts_apply by now rewrite Ho.
      rewrite Ho, (accepts_apply q d E).
      now rewrite <- andb_assoc, andb_diag.
    + now rewrite !(apply_passes_through q E).
  - unfold query_hooks. now rewrite !run_pre_map_unlisted.
Qed.

(** X6: a flag that is present but false counts as not requested: the
    executed filter is the one of a query without options. *)
Theorem false_flags_are_defaults (m : string) (f u r : obj)
    (w o : option bool) :
  truthy w = false ->
  truthy o = false ->
  getFilter
    (apply
       {| op := m; conditions := f; update := u;
          options := {| withDeleted := w; onlyDeleted := o; rest := r |} |})
  = getFilter (apply (Model_query m f)).
Proof.
  intros Hw Ho. unfold apply. simpl. rewrite Hw, Ho. simpl.
  destruct f; reflexivity.
Qed.

Lemma false_flags_are_defaults_witness :
  getFilter
    (apply
       {| op := "find"; conditions := []; update := [];
          options :=
            {| withDeleted := Some false; onlyDeleted := Some false;
               rest := [] |} |})
  = notDeleted tt.
Proof.
  rewrite (false_flags_are_defaults "find" [] [] [] (Some false)
             (Some false) eq_refl eq_refl).
  reflexivity.
Defined.

(* ===================================================================== *)
(** ** Further properties: helpers and instance mutators *)
(* ===================================================================== *)

Lemma obj_set_set (o : obj) (k : string) (v w : value) :
  obj_set (obj_set o k v) k w = obj_set o k w.
Proof.
  induction o as [|[k' v'] o IH]; simpl.
  - now rewrite String.eqb_refl.
  - destruct (String.eqb k' k) eqn:E; simpl.
    + now rewrite String.eqb_refl.
    + now rewrite E, IH.
Qed.

Lemma obj_set_same_value (o : obj) (k : string) (v : value) :
  obj_get o k = Some v -> obj_set o k v = o.
Proof.
  induction o as [|[k' v'] o IH]; simpl; intros H.
  - discriminate H.
  - destruct (String.eqb_spec k' k) as [->|Hne].
    + now injection H as ->.
    + now rewrite IH.
Qed.

Lemma keys_obj_set (o : obj) (k : string) (v : value) :
  keys (obj_set o k v)
  = match obj_get o k with
    | Some _ => keys o
    | None => keys o ++ [k]
    end.
Proof.
  induction o as [|[k' v'] o IH]; simpl.
  - reflexivity.
  - destruct (String.eqb_spec k' k) as [->|Hne]; simpl.
    + reflexivity.
    + rewrite IH. now destruct (obj_get o k).
Qed.

(** X7: the instance mutators touch nothing but the marker: every other
    field keeps its value, and the fields keep their order, with
    [deletedAt] added last when the record had none. *)
Theorem instance_mutators_touch_only_marker (now : Z) (d : document) :
  same_but_marker d (method_softDelete now d)
  /\ same_but_marker d (method_restore d)
  /\ keys (method_softDelete now d)
     = match marker d with Some _ => keys d | None => keys d ++ ["deletedAt"] end
  /\ keys (method_restore d)
     = match marker d with Some _ => keys d | None => keys d ++ ["deletedAt"] end.
Proof.
  unfold same_but_marker, method_softDelete, method_restore, save, marker.
  repeat split.
  - intros k Hk. apply obj_get_set_other. intros E. apply Hk. now symmetry.
  - intros k Hk. apply obj_get_set_other. intros E. apply Hk. now symmetry.
  - apply keys_obj_set.
  - apply keys_obj_set.
Qed.

Lemma instance_mutators_touch_only_marker_witness :
  obj_get (method_softDelete 1800000000000 rec_A) "name" = Some (VStr "A")
  /\ keys (method_restore rec_A) = ["name"; "deletedAt"].
Proof.
  destruct (instance_mutators_touch_only_marker 1800000000000 rec_A)
    as (H1 & _ & _ & H4).
  split.
  - rewrite (H1 "name"); [reflexivity|discriminate].
  - rewrite H4. reflexivity.
Defined.

(** X8: the instance mutators overwrite: the last call decides the marker,
    so [softDelete] after [softDelete] re-stamps, [restore] after
    [softDelete] gives what [restore] alone gives, and on a record whose
    marker was null [softDelete] followed by [restore] gives the record
    back as it was. *)
Theorem instance_mutators_compose (t1 t2 : Z) (d : document) :
  method_softDelete t2 (method_softDelete t1 d) = method_softDelete t2 d
  /\ method_restore (method_restore d) = method_restore d
  /\ method_restore (method_softDelete t1 d) = method_restore d
  /\ method_softDelete t1 (method_restore d) = method_softDelete t1 d
  /\ (marker d = Some VNull -> method_restore (method_softDelete t1 d) = d).
Proof.
  unfold method_softDelete, method_restore, save, marker.
  repeat split; try apply obj_set_set.
  intros H. rewrite obj_set_set. now apply obj_set_same_value.
Qed.

Lemma instance_mutators_compose_witness :
  method_restore (method_softDelete 1800000000000 rec_C) = rec_C.
Proof.
  destruct (instance_mutators_compose 1800000000000 0 rec_C)
    as (_ & _ & _ & _ & H).
  apply H. reflexivity.
Defined.

(* ===================================================================== *)
(** ** Further properties: bulk statics *)
(* ===================================================================== *)

Lemma Forall2_map_right {A : Type} (P : A -> A -> Prop) (g : A -> A)
    (l : list A) :
  (forall x, P x (g x)) -> Forall2 P l (map g l).
Proof.
  intros H. induction l as [|x l IH]; simpl; constructor; auto.
Qed.

Lemma same_but_marker_refl (d : document) : same_but_marker d d.
Proof. intros k _. reflexivity. Qed.

Lemma same_but_marker_set (d : document) (v : value) :
  same_but_marker d (obj_set d "deletedAt" v).
Proof. intros k Hk. apply obj_get_set_other. intros E. apply Hk. now symmetry. Qed.

Lemma exec_update_set (q : Query) (payload : obj) (c : collection) :
  update q = [("$set", VObj payload)] ->
  updateMany (getFilter q) (update q) c
  = Some
      (map (fun d => if accepts (getFilter q) d then apply_set payload d else d)
         c).
Proof. intros ->. apply updateMany_set. Qed.

(** X9: the statics hand back the query they built, so the caller can
    still mark it.  Marked [withDeleted()], bulk [restore] and bulk
    [softDelete] write the marker on exactly the records the caller's
    filter accepts (all records when the filter is omitted), deleted or
    not; marked [onlyDeleted()], on a collection whose markers are absent
    or scalar, bulk [restore] sets null on exactly the accepted records
    whose marker is a number. *)
Theorem bulk_statics_with_opt_out (now : Z) (f : option obj)
    (c : collection) :
  exec_update query_hooks (query_withDeleted (static_restore f)) c
  = Some
      (map
         (fun d =>
            if accepts (nullish f []) d
            then obj_set d "deletedAt" VNull
            else d)
         c)
  /\ exec_update query_hooks (query_withDeleted (static_softDelete now f)) c
     = Some
         (map
            (fun d =>
               if accepts (nullish f []) d
               then obj_set d "deletedAt" (VNum (generateUnixTime now))
               else d)
            c)
  /\ (Forall scalar_marker c ->
      exec_update query_hooks (query_onlyDeleted (static_restore f)) c
      = Some
          (map
             (fun d =>
                if accepts (nullish f []) d && numeric_marker d
                then obj_set d "deletedAt" VNull
                else d)
             c)).
Proof.
  split; [|split].
  - unfold exec_update. rewrite executed_withDeleted by reflexivity.
    apply updateMany_set.
  - unfold exec_update. rewrite executed_withDeleted by reflexivity.
    apply updateMany_set.
  - intros Hs. unfold exec_update, executed. simpl op.
    rewrite run_pre_listed by (simpl; tauto).
    destruct (apply_keeps_frame (query_onlyDeleted (static_restore f)))
      as (_ & Hu & _).
    rewrite (exec_update_set _ [("deletedAt", VNull)]) by exact Hu.
    f_equal. apply map_ext_in. intros d Hin.
    rewrite accepts_apply by reflexivity.
    change (injected _) with (isDeleted tt).
    rewrite accepts_isDeleted; [reflexivity|].
    rewrite Forall_forall in Hs. now apply Hs.
Qed.

Lemma bulk_statics_with_opt_out_witness :
  exec_update query_hooks (query_onlyDeleted (static_restore None))
    [rec_A; rec_B; rec_D]
  = Some
      [rec_A; [("name", VStr "B"); ("deletedAt", VNull)]; rec_D].
Proof.
  destruct (bulk_statics_with_opt_out 0 None [rec_A; rec_B; rec_D])
    as (_ & _ & H).
  rewrite H; [reflexivity|repeat constructor].
Defined.

(** X10: the bulk statics never fail, never add or remove a record, and
    change no field but the marker. *)
Theorem bulk_statics_keep_records (now : Z) (f : option obj)
    (c : collection) :
  (exists c',
     exec_update query_hooks (static_softDelete now f) c = Some c'
     /\ Forall2 same_but_marker c c')
  /\ (exists c',
        exec_update query_hooks (static_restore f) c = Some c'
        /\ Forall2 same_but_marker c c').
Proof.
  split.
  - rewrite exec_static_softDelete. eexists. split; [reflexivity|].
    apply Forall2_map_right. intros d.
    destruct (accepts _ d);
      [apply same_but_marker_set | apply same_but_marker_refl].
  - rewrite exec_static_restore. eexists. split; [reflexivity|].
    apply Forall2_map_right. intros d.
    destruct (accepts _ d);
      [apply same_but_marker_set | apply same_but_marker_refl].
Qed.

Lemma bulk_statics_keep_records_witness :
  exists c',
    exec_update query_hooks (static_softDelete 1800000000000 None)
      [rec_A; rec_B] = Some c'
    /\ Forall2 (fun d d' => obj_get d' "name" = obj_get d "name")
         [rec_A; rec_B] c'.
Proof.
  destruct (bulk_statics_keep_records 1800000000000 None [rec_A; rec_B])
    as [(c' & He & Hf) _].
  exists c'. split; [exact He|].
  eapply Forall2_impl; [|exact Hf].
  intros d d' H. apply H. discriminate.
Defined.

(** X11: issued without per-call options, the bulk statics leave every
    record whose marker is a number exactly as it is, whatever the
    filter. *)
Theorem bulk_statics_skip_numeric_markers (now : Z) (f : option obj)
    (c : collection) :
  (exists c',
     exec_update query_hooks (static_softDelete now f) c = Some c'
     /\ Forall2 (fun d d' => numeric_marker d = true -> d' = d) c c')
  /\ (exists c',
        exec_update query_hooks (static_restore f) c = Some c'
        /\ Forall2 (fun d d' => numeric_marker d = true -> d' = d) c c').
Proof.
  assert (Hskip : forall d,
             numeric_marker d = true -> accepts (bulk_filter f) d = false).
  { intros d Hn. unfold numeric_marker in Hn.
    destruct (marker d) as [[| |n| | |]|] eqn:E; try discriminate Hn.
    exact (bulk_statics_leave_deleted_records f d n E). }
  split.
  - rewrite exec_static_softDelete. eexists. split; [reflexivity|].
    apply Forall2_map_right. intros d Hn. now rewrite (Hskip d Hn).
  - rewrite exec_static_restore. eexists. split; [reflexivity|].
    apply Forall2_map_right. intros d Hn. now rewrite (Hskip d Hn).
Qed.

Lemma bulk_statics_skip_numeric_markers_witness :
  exists c',
    exec_update query_hooks (static_restore None) [rec_B] = Some c'
    /\ c' = [rec_B].
Proof.
  destruct (bulk_statics_skip_numeric_markers 0 None [rec_B])
    as [_ (c' & He & Hf)].
  exists c'. split; [exact He|].
  inversion Hf as [|x y l l' Hxy Hrest]; subst.
  inversion Hrest; subst.
  rewrite (Hxy eq_refl). reflexivity.
Defined.

(** X12: repeating a bulk [softDelete] with the same filter changes
    nothing, whatever the clock says at the second call: the records the
    first call stamped are no longer selected. *)
Theorem bulk_softDelete_repeat_changes_nothing (t1 t2 : Z) (f : option obj)
    (c c1 : collection) :
  exec_update query_hooks (static_softDelete t1 f) c = Some c1 ->
  exec_update query_hooks (static_softDelete t2 f) c1 = Some c1.
Proof.
  rewrite !exec_static_softDelete. intros H. injection H as <-.
  f_equal. rewrite map_map.
  apply map_ext. intros d.
  destruct (accepts (bulk_filter f) d) eqn:E.
  - rewrite (bulk_statics_leave_deleted_records f _
               (generateUnixTime t1)); [reflexivity|].
    unfold marker. apply obj_get_set_same.
  - rewrite E. reflexivity.
Qed.

Lemma bulk_softDelete_repeat_changes_nothing_witness :
  exec_update query_hooks
    (static_softDelete 1900000000000 (Some [("name", VStr "A")]))
    [[("name", VStr "A"); ("deletedAt", VNum 1800000000)]; rec_C]
  = Some [[("name", VStr "A"); ("deletedAt", VNum 1800000000)]; rec_C].
Proof.
  apply (bulk_softDelete_repeat_changes_nothing 1800000000000 1900000000000
           (Some [("name", VStr "A")]) [rec_A; rec_C]).
  reflexivity.
Defined.

(* ===================================================================== *)
(** ** Further properties: aggregation parity *)
(* ===================================================================== *)



(* ===================================================================== *)
(** ** Further properties: the timestamp plugin and the wiring *)
(* ===================================================================== *)

Lemma obj_get_delete_same (o : obj) (k : string) :
  obj_get (obj_delete o k) k = None.
Proof.
  induction o as [|[k' v'] o IH]; simpl.
  - reflexivity.
  - destruct (String.eqb k' k) eqn:E; simpl; [exact IH|].
    now rewrite E.
Qed.

Lemma obj_delete_absent (o : obj) (k : string) :
  obj_get o k = None -> obj_delete o k = o.
Proof.
  induction o as [|[k' v'] o IH]; simpl; intros H.
  - reflexivity.
  - destruct (String.eqb k' k); [discriminate H|].
    now rewrite IH.
Qed.

Lemma set_part_of_set (u s : obj) :
  set_part (obj_set u "$set" (VObj s)) = s.
Proof. unfold set_part. now rewrite obj_get_set_same. Qed.

Lemma set_path_twice (path : string) (v w : value) (q : Query) :
  path <> "$set" ->
  set_path path w (set_path path v q) = set_path path w q.
Proof.
  intros Hne. unfold set_path. cbn [update op conditions options]. f_equal.
  set (D := obj_delete (update q) path).
  assert (Hd : obj_delete
                 (obj_set D "$set" (VObj (obj_set (set_part D) path v))) path
               = obj_set D "$set" (VObj (obj_set (set_part D) path v))).
  { apply obj_delete_absent.
    rewrite obj_get_set_other by (intros E; apply Hne; now symmetry).
    apply obj_get_delete_same. }
  rewrite Hd, set_part_of_set.
  now rewrite !obj_set_set.
Qed.

(** X14: Unix seconds follow the clock: a later reading never gives an
    earlier second, and a reading [r] milliseconds into second [s] gives
    [s], also before the epoch, where the division rounds down. *)
Theorem generateUnixTime_follows_clock (now1 now2 s r : Z) :
  ((now1 <= now2)%Z ->
   (TimeSpan.generateUnixTime now1 <= TimeSpan.generateUnixTime now2)%Z
   /\ (SoftDelete.generateUnixTime now1
       <= SoftDelete.generateUnixTime now2)%Z)
  /\ ((0 <= r < 1000)%Z ->
      TimeSpan.generateUnixTime (1000 * s + r) = s
      /\ SoftDelete.generateUnixTime (1000 * s + r) = s).
Proof.
  unfold TimeSpan.generateUnixTime, SoftDelete.generateUnixTime.
  split.
  - intros H. split; apply Z.div_le_mono; lia.
  - intros H.
    assert (E : ((1000 * s + r) / 1000 = s)%Z).
    { symmetry. apply (Z.div_unique (1000 * s + r) 1000 s r); lia. }
    split; exact E.
Qed.

Lemma generateUnixTime_follows_clock_witness :
  TimeSpan.generateUnixTime (-1) = (-1)%Z
  /\ (TimeSpan.generateUnixTime 1799999999999
      <= TimeSpan.generateUnixTime 1800000000000)%Z.
Proof.
  destruct (generateUnixTime_follows_clock 1799999999999 1800000000000
              (-1) 999) as [H1 H2].
  split.
  - apply H2. lia.
  - apply H1. lia.
Defined.

(** X15: on a new record the two markers come from two clock readings:
    when the clock does not run backwards between them, [createdAt] is at
    most [updatedAt], and they differ by less than the time between the
    readings plus one second. *)
Theorem new_record_created_before_updated (now1 now2 : Z) (f : document) :
  (now1 <= now2)%Z ->
  exists a b,
    obj_get
      (TimeSpan.fields
         (TimeSpan.pre_save now1 now2
            {| TimeSpan.isNew := true; TimeSpan.fields := f |})) "createdAt"
    = Some (VNum a)
    /\ obj_get
         (TimeSpan.fields
            (TimeSpan.pre_save now1 now2
               {| TimeSpan.isNew := true; TimeSpan.fields := f |}))
         "updatedAt"
       = Some (VNum b)
    /\ (a <= b)%Z
    /\ (1000 * (b - a) < now2 - now1 + 1000)%Z.
Proof.
  intros Hle.
  exists (TimeSpan.generateUnixTime now1), (TimeSpan.generateUnixTime now2).
  unfold TimeSpan.pre_save, TimeSpan.assign.
  cbn [TimeSpan.fields TimeSpan.isNew].
  split; [|split; [|split]].
  - rewrite obj_get_set_other by discriminate. apply obj_get_set_same.
  - apply obj_get_set_same.
  - unfold TimeSpan.generateUnixTime. apply Z.div_le_mono; lia.
  - pose proof (generateUnixTime_floor now1) as H1.
    pose proof (generateUnixTime_floor now2) as H2.
    unfold TimeSpan.generateUnixTime in *. lia.
Qed.

Lemma new_record_created_before_updated_witness :
  exists a b,
    obj_get
      (TimeSpan.fields
         (TimeSpan.pre_save 1799999999999 1800000000000
            {| TimeSpan.isNew := true; TimeSpan.fields := [] |})) "createdAt"
    = Some (VNum a)
    /\ obj_get
         (TimeSpan.fields
            (TimeSpan.pre_save 1799999999999 1800000000000
               {| TimeSpan.isNew := true; TimeSpan.fields := [] |}))
         "updatedAt"
       = Some (VNum b)
    /\ (a <= b)%Z
    /\ (1000 * (b - a) < 1800000000000 - 1799999999999 + 1000)%Z.
Proof.
  apply (new_record_created_before_updated 1799999999999 1800000000000 []).
  lia.
Defined.

(** X16: the save hook writes its two markers and nothing else: every
    other field keeps its value and the record stays new or not new. *)
Theorem pre_save_touches_only_its_markers (now1 now2 : Z)
    (this : TimeSpan.Doc) (k : string) :
  k <> "createdAt" ->
  k <> "updatedAt" ->
  obj_get (TimeSpan.fields (TimeSpan.pre_save now1 now2 this)) k
  = obj_get (TimeSpan.fields this) k
  /\ TimeSpan.isNew (TimeSpan.pre_save now1 now2 this) = TimeSpan.isNew this.
Proof.
  intros Hc Hu. unfold TimeSpan.pre_save, TimeSpan.assign.
  destruct this as [[] f]; simpl; split; try reflexivity.
  - rewrite !obj_get_set_other; auto.
  - rewrite obj_get_set_other; auto.
Qed.

Lemma pre_save_touches_only_its_markers_witness :
  obj_get
    (TimeSpan.fields
       (TimeSpan.pre_save 0 0
          {| TimeSpan.isNew := true; TimeSpan.fields := rec_article |}))
    "title"
  = Some (VStr "old").
Proof.
  destruct (pre_save_touches_only_its_markers 0 0
              {| TimeSpan.isNew := true; TimeSpan.fields := rec_article |}
              "title") as [H _]; [discriminate|discriminate|].
  rewrite H. reflexivity.
Defined.

(** X17: the [findOneAndUpdate] hook leaves operation, filter and options
    alone; in the update it drops a top-level [updatedAt] the caller
    passed, keeps every other top-level key but [$set], and when it runs
    again the later clock reading replaces the earlier one. *)
Theorem findOneAndUpdate_hook_owns_updatedAt (now1 now2 : Z) (q : Query) :
  op (TimeSpan.pre_findOneAndUpdate now1 q) = op q
  /\ getFilter (TimeSpan.pre_findOneAndUpdate now1 q) = getFilter q
  /\ getOptions (TimeSpan.pre_findOneAndUpdate now1 q) = getOptions q
  /\ obj_get (update (TimeSpan.pre_findOneAndUpdate now1 q)) "updatedAt"
     = None
  /\ (forall k,
        k <> "updatedAt" ->
        k <> "$set" ->
        obj_get (update (TimeSpan.pre_findOneAndUpdate now1 q)) k
        = obj_get (update q) k)
  /\ TimeSpan.pre_findOneAndUpdate now2
       (TimeSpan.pre_findOneAndUpdate now1 q)
     = TimeSpan.pre_findOneAndUpdate now2 q.
Proof.
  repeat (split; [reflexivity|]).
  split; [|split].
  - rewrite pre_findOneAndUpdate_update.
    rewrite obj_get_set_other by discriminate.
    apply obj_get_delete_same.
  - intros k Hk Hs.
    rewrite pre_findOneAndUpdate_update.
    rewrite obj_get_set_other by (intros E; apply Hs; now symmetry).
    apply obj_get_delete_other. intros E. apply Hk. now symmetry.
  - unfold TimeSpan.pre_findOneAndUpdate, set_. cbn [fold_left fst snd].
    apply set_path_twice. discriminate.
Qed.

Lemma findOneAndUpdate_hook_owns_updatedAt_witness :
  obj_get
    (update
       (TimeSpan.pre_findOneAndUpdate 1800000000000
          (Model_findOneAndUpdate []
             [("title", VStr "new"); ("updatedAt", VNum 5)])))
    "title"
  = Some (VStr "new").
Proof.
  destruct (findOneAndUpdate_hook_owns_updatedAt 1800000000000 0
              (Model_findOneAndUpdate []
                 [("title", VStr "new"); ("updatedAt", VNum 5)]))
    as (_ & _ & _ & _ & H & _).
  rewrite H; [reflexivity|discriminate|discriminate].
Defined.

Lemma apply_commutes_with_stamp (now : Z) (q : Query) :
  apply (TimeSpan.pre_findOneAndUpdate now q)
  = TimeSpan.pre_findOneAndUpdate now (apply q).
Proof.
  unfold TimeSpan.pre_findOneAndUpdate, set_. cbn [fold_left fst snd].
  unfold apply, set_path, getOptions, getFilter, where_, setQuery. simpl.
  destruct (_ && _); [reflexivity|].
  destruct (negb _); reflexivity.
Qed.

(** X18: with the plugins wired as the module wires them, a
    [findOneAndUpdate] gets both the timestamp and the deletion filter, in
    either order with the same result; any other listed operation gets the
    deletion filter only; an unlisted operation runs as it was built. *)
Theorem wired_hooks_compose (now : Z) (q : Query) :
  (op q = "findOneAndUpdate" ->
   executed (MongoDbModule.query_hooks now) q
   = apply (TimeSpan.pre_findOneAndUpdate now q)
   /\ executed (MongoDbModule.query_hooks now) q
      = executed (query_hooks ++ TimeSpan.query_hooks now) q)
  /\ (In (op q) methods ->
      op q <> "findOneAndUpdate" ->
      executed (MongoDbModule.query_hooks now) q = apply q)
  /\ (~ In (op q) methods ->
      executed (MongoDbModule.query_hooks now) q = q).
Proof.
  unfold executed, MongoDbModule.query_hooks.
  split; [|split].
  - intros Hop. rewrite !run_pre_app, Hop.
    rewrite !run_pre_listed by (simpl; tauto).
    unfold run_pre, TimeSpan.query_hooks. cbn [fold_left fst snd].
    rewrite String.eqb_refl.
    split; [reflexivity|]. apply apply_commutes_with_stamp.
  - intros Hm Hne. rewrite run_pre_app.
    rewrite (timespan_hook_fires_only_on_findOneAndUpdate now q Hne
             : run_pre (TimeSpan.query_hooks now) (op q) q = q).
    now apply run_pre_listed.
  - intros Hn. rewrite run_pre_app.
    assert (Hne : op q <> "findOneAndUpdate").
    { intros E. apply Hn. rewrite E. simpl. tauto. }
    rewrite (timespan_hook_fires_only_on_findOneAndUpdate now q Hne
             : run_pre (TimeSpan.query_hooks now) (op q) q = q).
    unfold query_hooks. now apply run_pre_map_unlisted.
Qed.

Lemma wired_hooks_compose_witness :
  executed (MongoDbModule.query_hooks 1800000000000)
    (Model_findOneAndUpdate [] [])
  = apply
      (TimeSpan.pre_findOneAndUpdate 1800000000000
         (Model_findOneAndUpdate [] [])).
Proof.
  destruct (wired_hooks_compose 1800000000000 (Model_findOneAndUpdate [] []))
    as [H _].
  destruct (H eq_refl) as [H1 _]. exact H1.
Defined.

(* ===================================================================== *)
(** ** Further properties: the identity projector *)
(* ===================================================================== *)

Section IdTransformFacts.

Import IdTransform.

Context {V : Type} (String_ : option V -> string) (of_string : string -> V).

Lemma field_get_set_same (r : record V) (k : string) (v : V) :
  field_get (field_set r k v) k = Some v.
Proof.
  induction r as [|[k' v'] r IH]; simpl.
  - now rewrite String.eqb_refl.
  - destruct (String.eqb k' k) eqn:E; simpl.
    + now rewrite String.eqb_refl.
    + now rewrite E.
Qed.

Lemma field_get_set_other (r : record V) (k k' : string) (v : V) :
  k <> k' -> field_get (field_set r k v) k' = field_get r k'.
Proof.
  intros Hne.
  induction r as [|[k0 v0] r IH]; simpl.
  - destruct (String.eqb_spec k k'); [contradiction | reflexivity].
  - destruct (String.eqb_spec k0 k) as [->|Hk]; simpl.
    + destruct (String.eqb_spec k k'); [contradiction | reflexivity].
    + destruct (String.eqb_spec k0 k'); [reflexivity | exact IH].
Qed.

Lemma field_get_delete_same (r : record V) (k : string) :
  field_get (field_delete r k) k = None.
Proof.
  induction r as [|[k' v'] r IH]; simpl.
  - reflexivity.
  - destruct (String.eqb k' k) eqn:E; simpl; [exact IH|].
    now rewrite E.
Qed.

Lemma field_get_delete_other (r : record V) (k k' : string) :
  k <> k' -> field_get (field_delete r k) k' = field_get r k'.
Proof.
  intros Hne.
  induction r as [|[k0 v0] r IH]; simpl.
  - reflexivity.
  - destruct (String.eqb_spec k0 k) as [->|Hk].
    + destruct (String.eqb_spec k k'); [contradiction | exact IH].
    + simpl. destruct (String.eqb_spec k0 k'); [reflexivity | exact IH].
Qed.

Lemma fields_of_set (r : record V) (k : string) (v : V) :
  map fst (field_set r k v)
  = match field_get r k with
    | Some _ => map fst r
    | None => map fst r ++ [k]
    end.
Proof.
  induction r as [|[k' v'] r IH]; simpl.
  - reflexivity.
  - destruct (String.eqb_spec k' k) as [->|Hne]; simpl.
    + reflexivity.
    + rewrite IH. now destruct (field_get r k).
Qed.

Lemma fields_of_delete (r : record V) (k : string) :
  map fst (field_delete r k)
  = filter (fun k' => negb (String.eqb k' k)) (map fst r).
Proof.
  induction r as [|[k' v'] r IH]; simpl.
  - reflexivity.
  - destruct (String.eqb k' k); simpl; now rewrite IH.
Qed.

(** X19: in the serialized record [id] holds the string form of the
    former [_id], [_id] and [__v] are gone, and every other field keeps
    its value. *)
Theorem transform_renames_id (ret : record V) :
  field_get (transform String_ of_string ret) "id"
  = Some (of_string (String_ (field_get ret "_id")))
  /\ field_get (transform String_ of_string ret) "_id" = None
  /\ field_get (transform String_ of_string ret) "__v" = None
  /\ (forall k,
        k <> "id" -> k <> "_id" -> k <> "__v" ->
        field_get (transform String_ of_string ret) k = field_get ret k).
Proof.
  unfold transform.
  split; [|split; [|split]].
  - rewrite !field_get_delete_other by discriminate.
    apply field_get_set_same.
  - rewrite field_get_delete_other by discriminate.
    apply field_get_delete_same.
  - apply field_get_delete_same.
  - intros k Hid H_id Hv.
    rewrite !field_get_delete_other by (intros E; now symmetry in E).
    apply field_get_set_other. intros E. now symmetry in E.
Qed.

(** X20: the serialized record keeps the fields in their order: [id]
    stays where a field of that name already was and goes last otherwise,
    and [_id] and [__v] are taken out. *)
Theorem transform_keeps_field_order (ret : record V) :
  map fst (transform String_ of_string ret)
  = filter
      (fun k => negb (String.eqb k "_id") && negb (String.eqb k "__v"))
      (match field_get ret "id" with
       | Some _ => map fst ret
       | None => map fst ret ++ ["id"]
       end).
Proof.
  unfold transform.
  rewrite !fields_of_delete, fields_of_set.
  set (ks := match field_get ret "id" with
             | Some _ => map fst ret
             | None => map fst ret ++ ["id"]
             end).
  induction ks as [|k ks IH]; simpl.
  - reflexivity.
  - destruct (String.eqb k "_id"); simpl; [exact IH|].
    destruct (String.eqb k "__v"); simpl; now rewrite IH.
Qed.

(** X21: the string in [id] is taken from [_id] as it is at that moment:
    a record without [_id] gets the string form of [undefined], and so
    does any record the transform is run on a second time. *)
Theorem transform_needs_id (ret : record V) :
  (field_get ret "_id" = None ->
   field_get (transform String_ of_string ret) "id"
   = Some (of_string (String_ None)))
  /\ field_get
       (transform String_ of_string (transform String_ of_string ret)) "id"
     = Some (of_string (String_ None)).
Proof.
  assert (Hid : forall r,
             field_get (transform String_ of_string r) "id"
             = Some (of_string (String_ (field_get r "_id")))).
  { intros r. unfold transform.
    rewrite !field_get_delete_other by discriminate.
    apply field_get_set_same. }
  assert (Hgone : forall r,
             field_get (transform String_ of_string r) "_id" = None).
  { intros r. unfold transform.
    rewrite field_get_delete_other by discriminate.
    apply field_get_delete_same. }
  split.
  - intros H. now rewrite Hid, H.
  - now rewrite Hid, Hgone.
Qed.

End IdTransformFacts.

Lemma transform_renames_id_witness :
  IdTransform.transform IdTransform.String_of_string (fun s => s) ret_user
  = [("name", "John"); ("id", "507f1f77bcf86cd799439011")]
  /\ IdTransform.field_get
       (IdTransform.transform IdTransform.String_of_string (fun s => s)
          ret_user) "name"
     = Some "John".
Proof.
  split; [reflexivity|].
  destruct (transform_renames_id IdTransform.String_of_string (fun s => s)
              ret_user) as (_ & _ & _ & H).
  rewrite H; [reflexivity|discriminate|discriminate|discriminate].
Defined.

Lemma transform_needs_id_witness :
  IdTransform.field_get
    (IdTransform.transform IdTransform.String_of_string (fun s => s)
       [("name", "John")]) "id"
  = Some "undefined".
Proof.
  destruct (transform_needs_id IdTransform.String_of_string (fun s => s)
              [("name", "John")]) as [H _].
  apply H. reflexivity.
Defined.

(* ===================================================================== *)
(** ** Further properties: the three views together *)
(* ===================================================================== *)







(* ===================================================================== *)
(** ** Further properties: saving through validation *)
(* ===================================================================== *)


